(** * entt::Delegate<Ret(Args...)> -- src/entt/signal/delegate.hpp

    A delegate is a pair [stub] of an untyped instance pointer and a pointer
    to an instantiation of the static member template [proto].  This file
    embeds the class member by member and proves what the source does.

    Modelling conventions.
    - [const void *] is an address in [N]; [nullptr] is address 0.
    - A [proto_fn_type *] is either null ([None]) or the address of one
      instantiation of [proto]; an instantiation is identified by its
      template arguments, since two distinct functions have distinct
      addresses and one function has one address.
    - The free and member functions of the program are named by identifiers
      (what a non-type template argument [auto Function] denotes) and get
      their meaning from the tables [free_fn] and [member_fn].  A target
      returns a value of its own result type; [proto] returns [Ret].
    - Memory is a finite map from addresses to live objects; a call is a
      function from the memory before the call to an [outcome].
    - The members are templates, or members of a class template: a line
      that no instantiation can compile is met when the member is used.
      A member that can fail in this way returns a [compiled] value. *)

From Stdlib Require Import ZArith List.
From stdpp Require Import base decidable option list gmap.
Import ListNotations.

Local Open Scope N_scope.

(** [const void *] *)
Definition ptr : Type := N.

Definition nullptr : ptr := 0.

(** What the template argument [auto Function] of [proto] can denote. *)
Inductive callable (free_id member_id : Type) : Type :=
| FreeFunction (f : free_id)
| MemberFunction (m : member_id).

Arguments FreeFunction {free_id member_id} f.
Arguments MemberFunction {free_id member_id} m.

(** [std::is_member_function_pointer_v<decltype(Function)>] *)
Definition is_member_function_pointer {free_id member_id : Type}
  (Function : callable free_id member_id) : bool :=
  match Function with
  | MemberFunction _ => true
  | FreeFunction _ => false
  end.

(** One instantiation of [template<typename Class, auto Function> proto]:
    a type for [Class] and a value for [Function]. *)
Record proto_inst (class_id free_id member_id : Type) : Type := Proto {
  Class : class_id;
  Function : callable free_id member_id
}.

Arguments Proto {class_id free_id member_id} Class Function.
Arguments Class {class_id free_id member_id} _.
Arguments Function {class_id free_id member_id} _.

(** An argument written between the angle brackets of a template-id: a
    type or a value. *)
Inductive template_arg (class_id free_id member_id : Type) : Type :=
| type_arg (C : class_id)
| value_arg (F : callable free_id member_id).

Arguments type_arg {class_id free_id member_id} C.
Arguments value_arg {class_id free_id member_id} F.

(** The result of instantiating a member: the code it stands for, or no
    code at all because a line of it is ill-formed. *)
Inductive compiled (A : Type) : Type :=
| WellFormed (a : A)
| IllFormed.

Arguments WellFormed {A} a.
Arguments IllFormed {A}.

(** The result of running a call expression. *)
Inductive outcome (Ret Obj : Type) : Type :=
| Returned (r : Ret) (w : gmap N Obj)
| AssertionAbort
| Undefined.

Arguments Returned {Ret Obj} r w.
Arguments AssertionAbort {Ret Obj}.
Arguments Undefined {Ret Obj}.

(** The two kinds of type that meet in [reset]: the function type
    [Ret(const void *, Args...)] and the pointer to it. *)
Inductive type_kind : Type :=
| function_type
| pointer_to_function_type.

(** [using proto_fn_type = Ret(const void *, Args...)] *)
Definition proto_fn_type : type_kind := function_type.

(** The cv-qualification of the [Class] deduced by [connect(Class *instance)]. *)
Inductive cv_qualifier : Type :=
| unqualified
| const_qualified.

(** [static_cast<Class *>(instance)] with [instance] a [const void *]
    (line 44): a [static_cast] does not cast away constness, so the cast
    is well-formed for a const-qualified [Class] only. *)
Definition static_cast_well_formed (q : cv_qualifier) : bool :=
  match q with
  | const_qualified => true
  | unqualified => false
  end.

Section Delegate.

Context {Ret Res Args Obj : Type}.
Context {class_id free_id member_id : Type}.
Context `{!EqDecision class_id, !EqDecision free_id, !EqDecision member_id}.

(** The program around the delegate.
    - [convert]: the implicit conversion to [Ret] of a target's result,
      which [std::is_invocable_r_v<Ret, ...>] requires to exist.
    - [is_base_of B D]: [D] is [B] or a class derived from [B].
    - [class_of]: the class of the object an address holds.
    - [free_fn], [member_fn]: the bodies of the free functions and of the
      member functions (which receive [this]).
    [class_id] ranges over the classes as [connect] can bind them: see
    [instantiate_connect_member]. *)
Variable convert : Res -> Ret.
Variable is_base_of : class_id -> class_id -> bool.
Variable class_of : Obj -> class_id.
Variable free_fn : free_id -> Args -> gmap N Obj -> outcome Res Obj.
Variable member_fn : member_id -> ptr -> Args -> gmap N Obj -> outcome Res Obj.

#[local] Abbreviation World := (gmap N Obj).
#[local] Abbreviation proto_id := (proto_inst class_id free_id member_id).

#[global] Instance callable_eq_dec : EqDecision (callable free_id member_id).
Proof. solve_decision. Defined.

#[global] Instance proto_inst_eq_dec : EqDecision proto_id.
Proof. solve_decision. Defined.

(** [using stub_type = std::pair<const void *, proto_fn_type *>] *)
Definition stub_type : Type := ptr * option proto_id.

Record Delegate : Type := { stub : stub_type }.

(** [stub_type stub{}]: both members value-initialised. *)
Definition default : Delegate := {| stub := (nullptr, None) |}.

(** [p] points to a live object of class [C] or of a class derived from
    it. *)
Definition valid_instance (w : World) (C : class_id) (p : ptr) : Prop :=
  p <> nullptr /\ exists o, w !! p = Some o /\ is_base_of C (class_of o) = true.

(** [(static_cast<Class *>(instance)->*Function)(args...)]: the member
    runs on the object at [instance]; there is no behaviour to speak of
    when no object of that class, or of a class derived from it, lives
    there. *)
Definition member_call (C : class_id) (instance : ptr) (m : member_id)
  (args : Args) (w : World) : outcome Res Obj :=
  if decide (instance = nullptr) then Undefined
  else match w !! instance with
       | Some o => if is_base_of C (class_of o) then member_fn m instance args w
                   else Undefined
       | None => Undefined
       end.

(** [return e;] in a function that returns [Ret]: the value of [e] is
    converted to [Ret]; anything else the call did is passed on. *)
Definition return_as_Ret (o : outcome Res Obj) : outcome Ret Obj :=
  match o with
  | Returned r w => Returned (convert r) w
  | AssertionAbort => AssertionAbort
  | Undefined => Undefined
  end.

(** [static Ret proto(const void *instance, Args... args)]: the
    [if constexpr] on the kind of [Function].  The second case of each
    inner match cannot be reached. *)
Definition proto (T : proto_id) (instance : ptr) (args : Args) (w : World)
  : outcome Ret Obj :=
  if is_member_function_pointer (Function T) then
    match Function T with
    | MemberFunction m => return_as_Ret (member_call (Class T) instance m args w)
    | FreeFunction _ => Undefined
    end
  else
    match Function T with
    | FreeFunction f => return_as_Ret (free_fn f args w)
    | MemberFunction _ => Undefined
    end.

(** The specialisation of [proto] that a template-id [proto<args...>]
    names: [proto] is declared [template<typename Class, auto Function>],
    so it takes a type and then a value, and nothing else names one. *)
Definition proto_specialisation
  (args : list (template_arg class_id free_id member_id)) : option proto_id :=
  match args with
  | [type_arg C; value_arg F] => Some (Proto C F)
  | _ => None
  end.

(** Contextual conversion of a pointer to [bool]. *)
Definition to_bool {A : Type} (p : option A) : bool :=
  match p with
  | Some _ => true
  | None => false
  end.

(** [bool empty() const]: [return !stub.second] *)
Definition empty (d : Delegate) : bool :=
  negb (to_bool (stub d).2).

(** [template<auto Function> void connect()]:
    [stub = std::make_pair(nullptr, &proto<Function>)], where
    [proto<Function>] passes the value [Function] alone. *)
Definition connect_free (f : free_id) (d : Delegate) : compiled Delegate :=
  match proto_specialisation [value_arg (FreeFunction f)] with
  | Some T => WellFormed {| stub := (nullptr, Some T) |}
  | None => IllFormed
  end.

(** [template<auto Member, typename Class> void connect(Class *instance)]:
    [stub = std::make_pair(instance, &proto<Class, Member>)]. *)
Definition connect_member (C : class_id) (m : member_id) (instance : ptr)
  (d : Delegate) : Delegate :=
  {| stub := (instance, Some (Proto C (MemberFunction m))) |}.

(** The same member with the qualification of the deduced [Class] made
    explicit: taking the address of [proto<Class, Member>] instantiates
    its body, and with it the cast of line 44. *)
Definition instantiate_connect_member (q : cv_qualifier) (C : class_id)
  (m : member_id) (instance : ptr) (d : Delegate) : compiled Delegate :=
  if static_cast_well_formed q then WellFormed (connect_member C m instance d)
  else IllFormed.

(** [T{}]: a value-initialised pointer is null; a function type has no
    values. *)
Definition value_initialised (T : type_kind) : compiled (option proto_id) :=
  match T with
  | pointer_to_function_type => WellFormed None
  | function_type => IllFormed
  end.

(** [void reset()]: [stub.second = proto_fn_type{}] *)
Definition reset (d : Delegate) : compiled Delegate :=
  match value_initialised proto_fn_type with
  | WellFormed second => WellFormed {| stub := ((stub d).1, second) |}
  | IllFormed => IllFormed
  end.

(** The implicitly-declared copy assignment: [stub] is the only data
    member. *)
Definition operator_assign (src d : Delegate) : Delegate :=
  {| stub := stub src |}.

(** [Ret operator()(Args... args) const]: one indirect call through
    [stub.second], with nothing in front of it. *)
Definition operator_call (d : Delegate) (args : Args) (w : World)
  : outcome Ret Obj :=
  match (stub d).2 with
  | Some T => proto T (stub d).1 args w
  | None => Undefined
  end.

(** [bool operator==(const Delegate &other) const] *)
Definition operator_eq (d other : Delegate) : bool :=
  bool_decide ((stub d).1 = (stub other).1)
  && bool_decide ((stub d).2 = (stub other).2).

(** [bool operator!=(const Delegate &lhs, const Delegate &rhs)] *)
Definition operator_ne (lhs rhs : Delegate) : bool :=
  negb (operator_eq lhs rhs).

(** The value a program reads off the result of a member that may not
    compile: there is one only if the member compiled. *)
Definition compiled_map {A B : Type} (f : A -> B) (c : compiled A) : compiled B :=
  match c with
  | WellFormed a => WellFormed (f a)
  | IllFormed => IllFormed
  end.

(** [lhs == rhs] between the results of two such members. *)
Definition compiled_eq (lhs rhs : compiled Delegate) : compiled bool :=
  match lhs, rhs with
  | WellFormed l, WellFormed r => WellFormed (operator_eq l r)
  | _, _ => IllFormed
  end.

(** ** Histories of mutating calls

    The calls that assign to [stub] and that compile: the member form of
    [connect] and copy assignment.  [empty], [operator()] and
    [operator==] are [const]. *)
Inductive mutator : Type :=
| do_connect_member (C : class_id) (m : member_id) (instance : ptr)
| do_assign (src : Delegate).

Definition apply_mutator (d : Delegate) (o : mutator) : Delegate :=
  match o with
  | do_connect_member C m instance => connect_member C m instance d
  | do_assign src => operator_assign src d
  end.

(** The delegate obtained from a default-constructed one by the calls of
    [h], oldest first. *)
Definition run (h : list mutator) : Delegate :=
  fold_left apply_mutator h default.

End Delegate.

(** * A concrete program: [Delegate<bool(int, int)>]

    A class [Counter] with a [mutable int count] and two const members
    with the same body, [int Counter::bump(int, int) const] and
    [int Counter::add(int, int) const], which add [a + b] to the count and
    return the new count; a class [StepCounter] derived from [Counter]; an
    unrelated class [Gauge]; two free functions.  The targets return [int],
    the delegate returns [bool]. *)
Module Example.

Inductive class_id : Type := Counter | StepCounter | Gauge.

Inductive free_id : Type := add | mul.

Inductive member_id : Type := Counter_bump | Counter_add.

#[global] Instance class_id_eq_dec : EqDecision class_id.
Proof. solve_decision. Defined.

#[global] Instance free_id_eq_dec : EqDecision free_id.
Proof. solve_decision. Defined.

#[global] Instance member_id_eq_dec : EqDecision member_id.
Proof. solve_decision. Defined.

Record Obj : Type := { dyn_class : class_id; count : Z }.

Definition is_base_of (B D : class_id) : bool :=
  match B, D with
  | Counter, Counter | Counter, StepCounter => true
  | StepCounter, StepCounter => true
  | Gauge, Gauge => true
  | _, _ => false
  end.

(** The implicit conversion from [int] to [bool]. *)
Definition int_to_bool (z : Z) : bool := negb (z =? 0)%Z.

(** The integral promotion of [bool], which [==] applies to compare a
    [bool] with an [int]. *)
Definition promote (b : bool) : Z := if b then 1%Z else 0%Z.

Definition free_fn (f : free_id) (args : Z * Z) (w : gmap N Obj)
  : outcome Z Obj :=
  match f with
  | add => Returned (args.1 + args.2)%Z w
  | mul => Returned (args.1 * args.2)%Z w
  end.

Definition member_fn (m : member_id) (this : ptr) (args : Z * Z)
  (w : gmap N Obj) : outcome Z Obj :=
  match m with
  | Counter_bump | Counter_add =>
      match w !! this with
      | Some o =>
          let c := (count o + (args.1 + args.2))%Z in
          Returned c (<[this := {| dyn_class := dyn_class o; count := c |}]> w)
      | None => Undefined
      end
  end.

(** Two counters, at addresses 16 and 32, and a step counter at 64. *)
Definition heap : gmap N Obj :=
  <[16 := {| dyn_class := Counter; count := 0 |}]>
    (<[32 := {| dyn_class := Counter; count := 100 |}]>
       (<[64 := {| dyn_class := StepCounter; count := 7 |}]> ∅)).

Definition D : Type := @Delegate class_id free_id member_id.

(** [operator()] of [Delegate<bool(int, int)>]. *)
Definition call (d : D) (args : Z * Z) (w : gmap N Obj) : outcome bool Obj :=
  operator_call int_to_bool is_base_of dyn_class free_fn member_fn d args w.

(** [operator()] of [Delegate<int(int, int)>] over the same program: the
    targets return [Ret] itself. *)
Definition call_int (d : D) (args : Z * Z) (w : gmap N Obj) : outcome Z Obj :=
  operator_call (fun r : Z => r) is_base_of dyn_class free_fn member_fn d args w.

End Example.

(** * Properties of the delegate *)
Section DelegateProperties.

Context {Ret Res Args Obj : Type}.
Context {class_id free_id member_id : Type}.
Context `{!EqDecision class_id, !EqDecision free_id, !EqDecision member_id}.

Variable convert : Res -> Ret.
Variable is_base_of : class_id -> class_id -> bool.
Variable class_of : Obj -> class_id.
Variable free_fn : free_id -> Args -> gmap N Obj -> outcome Res Obj.
Variable member_fn : member_id -> ptr -> Args -> gmap N Obj -> outcome Res Obj.

#[local] Abbreviation delegate := (@Delegate class_id free_id member_id).
#[local] Abbreviation invoke :=
  (operator_call convert is_base_of class_of free_fn member_fn).
#[local] Abbreviation arrow_star := (member_call is_base_of class_of member_fn).
#[local] Abbreviation valid := (valid_instance is_base_of class_of).
#[local] Abbreviation as_Ret := (return_as_Ret convert).

Implicit Types (d other : delegate) (f g : free_id) (m : member_id).
Implicit Types (C : class_id) (p q : ptr) (a : Args) (w : gmap N Obj).

(** ** Shared facts *)

Lemma stub_connect_member C m p d :
  stub (connect_member C m p d) = (p, Some (Proto C (MemberFunction m))).
Proof. reflexivity. Qed.

Lemma empty_iff_null d : empty d = true <-> (stub d).2 = None.
Proof.
  unfold empty. destruct d as [[ctx [T|]]]; simpl; split; congruence.
Qed.

Lemma operator_eq_true d other :
  operator_eq d other = true
  <-> (stub d).1 = (stub other).1 /\ (stub d).2 = (stub other).2.
Proof.
  unfold operator_eq.
  rewrite andb_true_iff, !bool_decide_eq_true. reflexivity.
Qed.

Lemma operator_eq_false_context d other :
  (stub d).1 <> (stub other).1 -> operator_eq d other = false.
Proof.
  intros Hne. apply not_true_is_false. rewrite operator_eq_true. tauto.
Qed.

Lemma operator_eq_false_trampoline d other :
  (stub d).2 <> (stub other).2 -> operator_eq d other = false.
Proof.
  intros Hne. apply not_true_is_false. rewrite operator_eq_true. tauto.
Qed.

Lemma invoke_member C m p d a w :
  invoke (connect_member C m p d) a w = as_Ret (arrow_star C p m a w).
Proof. reflexivity. Qed.

Lemma arrow_star_valid C m p a w :
  valid w C p -> arrow_star C p m a w = member_fn m p a w.
Proof.
  intros [Hnn (o & Hlook & Hcls)]. unfold member_call.
  destruct (decide (p = nullptr)) as [Heq|_]; [contradiction|].
  rewrite Hlook, Hcls. reflexivity.
Qed.

Lemma no_specialisation_for_a_value_alone (F : callable free_id member_id) :
  proto_specialisation [value_arg F] = (None : option (proto_inst class_id free_id member_id)).
Proof. reflexivity. Qed.

Lemma connect_free_ill_formed f d : connect_free f d = IllFormed.
Proof.
  unfold connect_free. rewrite no_specialisation_for_a_value_alone. reflexivity.
Qed.

Lemma reset_ill_formed d : reset d = IllFormed.
Proof. reflexivity. Qed.

Lemma instantiate_connect_member_const C m p d :
  instantiate_connect_member const_qualified C m p d
  = WellFormed (connect_member C m p d).
Proof. reflexivity. Qed.

Lemma run_snoc (h : list (@mutator class_id free_id member_id)) o :
  run (h ++ [o]) = apply_mutator (run h) o.
Proof. unfold run. rewrite fold_left_app. reflexivity. Qed.

(** ** Binding a free function *)

(** C1. [connect<f>()] binds nothing: [proto] takes a type and then a
    value, so [proto<Function>] in line 67 names no specialisation, the
    member is ill-formed for every free function [f], and there is no
    bound delegate to invoke, hence no invocation that returns [f(a...)]. *)
Theorem free_connect_is_ill_formed f d :
  proto_specialisation [value_arg (FreeFunction f)]
  = (None : option (proto_inst class_id free_id member_id))
  /\ connect_free f d = IllFormed
  /\ (forall a w,
        compiled_map (fun bound => invoke bound a w) (connect_free f d)
        = IllFormed).
Proof.
  split; [apply no_specialisation_for_a_value_alone|].
  split; [apply connect_free_ill_formed|].
  intros a w. rewrite connect_free_ill_formed. reflexivity.
Qed.

(** ** Invocation *)

(** C2, as amended.  After the member form of [connect] with a non-null
    [obj] that points to a live object of [Class] or of a class derived
    from it, invoking the delegate runs [m] with [this = obj] and the
    forwarded arguments, has the effects of that call on memory, and
    returns its result converted to [Ret]. *)
Theorem delegate_member_function_call C m p d a w :
  valid w C p ->
  invoke (connect_member C m p d) a w = as_Ret (member_fn m p a w).
Proof.
  intros Hvalid. rewrite invoke_member, (arrow_star_valid _ _ _ _ _ Hvalid).
  reflexivity.
Qed.

(** C3. The source's [operator()] carries no assertion: whatever the
    build, invoking a delegate whose [stub.second] is null, the
    default-constructed one among them, goes straight to the call through
    the null pointer.  The outcome is never an assertion abort (which is
    what the claim and the member's own documentation promise for debug
    builds), and never a returned value. *)
Theorem empty_invoke_has_no_assertion a w :
  invoke default a w = Undefined
  /\ (forall ctx, invoke {| stub := (ctx, None) |} a w = Undefined)
  /\ invoke default a w <> AssertionAbort
  /\ (forall ctx, invoke {| stub := (ctx, None) |} a w <> AssertionAbort)
  /\ (forall ctx r w', invoke {| stub := (ctx, None) |} a w <> Returned r w').
Proof.
  assert (Hnull : forall ctx, invoke {| stub := (ctx, None) |} a w = Undefined)
    by reflexivity.
  assert (Hd : invoke default a w = Undefined) by apply Hnull.
  split; [exact Hd|]. split; [exact Hnull|].
  rewrite Hd. split; [discriminate|].
  split; intros; rewrite Hnull; discriminate.
Qed.

(** ** Emptiness *)

(** C4. Of the calls the claim speaks of, [reset()] and the free form of
    [connect] are ill-formed, so there is no [empty()] to read after
    them.  What the rest of the code does: [empty()] is true exactly when
    [stub.second] is null, and false after the member form of [connect]. *)
Theorem emptiness_after_reset_and_connect d :
  compiled_map empty (reset d) = IllFormed
  /\ (forall f, compiled_map empty (connect_free f d) = IllFormed)
  /\ (empty d = true <-> (stub d).2 = None)
  /\ (forall C m p, empty (connect_member C m p d) = false).
Proof.
  split; [rewrite reset_ill_formed; reflexivity|].
  split; [intros f; rewrite connect_free_ill_formed; reflexivity|].
  split; [apply empty_iff_null|].
  intros C m p. reflexivity.
Qed.

(** C5. A default-constructed delegate is empty. *)
Theorem default_constructed_is_empty : empty (default : delegate) = true.
Proof. reflexivity. Qed.

(** ** Comparison *)

(** C6. [operator==] is true exactly when the two context pointers are
    equal and the two trampoline pointers are equal.  It compares the
    binding, not the behaviour: delegates bound on the same instance to
    two distinct member functions are unequal even when the two members
    do the same thing on every input. *)
Theorem operator_eq_is_binding_identity d other :
  (operator_eq d other = true
   <-> (stub d).1 = (stub other).1 /\ (stub d).2 = (stub other).2)
  /\ (forall C m m' p,
        m <> m' ->
        (forall this a w, member_fn m this a w = member_fn m' this a w) ->
        operator_eq (connect_member C m p d) (connect_member C m' p other)
        = false).
Proof.
  split; [apply operator_eq_true|].
  intros C m m' p Hne _. apply operator_eq_false_trampoline.
  rewrite !stub_connect_member. simpl. congruence.
Qed.

(** C7. Rebinding a bound delegate to a free function is ill-formed, like
    every use of the free form of [connect]: there is no rebound delegate
    and no later invocation.  Rebinding with the member form needs no
    [reset] and gives the delegate a fresh one would become. *)
Theorem rebinding_to_free_function_is_ill_formed C m p g d :
  connect_free g (connect_member C m p d) = IllFormed
  /\ (forall a w,
        compiled_map (fun rebound => invoke rebound a w)
          (connect_free g (connect_member C m p d))
        = IllFormed)
  /\ (forall C' m' q,
        connect_member C' m' q (connect_member C m p d)
        = connect_member C' m' q default).
Proof.
  split; [apply connect_free_ill_formed|].
  split; [intros a w; rewrite connect_free_ill_formed; reflexivity|].
  intros C' m' q. reflexivity.
Qed.

(** C8. No comparison involving a delegate bound to a free function can
    be written: the free form of [connect] is ill-formed, so neither
    "two delegates bound to the same free function" nor "one bound to a
    free function and one to a member function" exist to be compared. *)
Theorem free_binding_comparisons_are_ill_formed f d other :
  compiled_eq (connect_free f d) (connect_free f other) = IllFormed
  /\ (forall C m p,
        compiled_eq (connect_free f d) (WellFormed (connect_member C m p other))
        = IllFormed
        /\ compiled_eq (WellFormed (connect_member C m p other)) (connect_free f d)
           = IllFormed).
Proof.
  rewrite !connect_free_ill_formed. split; [reflexivity|].
  intros C m p. split; reflexivity.
Qed.

(** C9. Two delegates connected to the same member function of the same
    class on instances at different addresses are unequal. *)
Theorem same_member_distinct_instances_unequal C m p q d other :
  p <> q ->
  operator_eq (connect_member C m p d) (connect_member C m q other) = false.
Proof.
  intros Hpq. apply operator_eq_false_context.
  rewrite !stub_connect_member. simpl. exact Hpq.
Qed.

(** C10. [reset()] is ill-formed: line 93 value-initialises the function
    type [proto_fn_type], not the pointer type of [stub.second].  After a
    member binding on [p] there is no reset delegate whose context or
    emptiness could be read, or that could be compared with a
    default-constructed one. *)
Theorem reset_is_ill_formed C m p d :
  value_initialised proto_fn_type
  = (IllFormed : compiled (option (proto_inst class_id free_id member_id)))
  /\ reset (connect_member C m p d) = IllFormed
  /\ compiled_map (fun r => (stub r).1) (reset (connect_member C m p d))
     = IllFormed
  /\ compiled_map empty (reset (connect_member C m p d)) = IllFormed
  /\ compiled_eq (reset (connect_member C m p d)) (WellFormed default)
     = IllFormed.
Proof.
  rewrite reset_ill_formed. repeat split.
Qed.

(** ** Further properties of the comparison operators *)

(** X1. [operator!=] is true exactly when the context pointers differ or
    the trampoline pointers differ, and false exactly when both agree. *)
Theorem operator_ne_characterised (lhs rhs : delegate) :
  (operator_ne lhs rhs = true
   <-> (stub lhs).1 <> (stub rhs).1 \/ (stub lhs).2 <> (stub rhs).2)
  /\ (operator_ne lhs rhs = false
      <-> (stub lhs).1 = (stub rhs).1 /\ (stub lhs).2 = (stub rhs).2).
Proof.
  unfold operator_ne. rewrite negb_true_iff, negb_false_iff. split.
  - rewrite <- not_true_iff_false, operator_eq_true. split; [|tauto].
    intros Hnot.
    destruct (decide ((stub lhs).1 = (stub rhs).1)) as [Hctx|Hctx]; [|tauto].
    destruct (decide ((stub lhs).2 = (stub rhs).2)) as [Htr|Htr]; tauto.
  - apply operator_eq_true.
Qed.

(** X2. [operator==] is reflexive, symmetric and transitive; [operator!=]
    is irreflexive and symmetric. *)
Theorem operator_eq_equivalence (d other third : delegate) :
  operator_eq d d = true
  /\ operator_eq d other = operator_eq other d
  /\ (operator_eq d other = true ->
      operator_eq other third = true ->
      operator_eq d third = true)
  /\ operator_ne d d = false
  /\ operator_ne d other = operator_ne other d.
Proof.
  assert (Hrefl : operator_eq d d = true).
  { apply operator_eq_true. split; reflexivity. }
  assert (Hsym : operator_eq d other = operator_eq other d).
  { apply eq_iff_eq_true. rewrite !operator_eq_true.
    split; intros [Hctx Htr]; split; congruence. }
  split; [exact Hrefl|]. split; [exact Hsym|]. split; [|split].
  - rewrite !operator_eq_true. intros [H1 H2] [H3 H4]. split; congruence.
  - unfold operator_ne. rewrite Hrefl. reflexivity.
  - unfold operator_ne. rewrite Hsym. reflexivity.
Qed.

(** X3. Delegates that compare equal hold the same state, so nothing can
    tell them apart: [empty()] agrees, every invocation has the same
    outcome, and they are still equal after the same mutating call. *)
Theorem equal_delegates_indistinguishable d other :
  operator_eq d other = true ->
  d = other
  /\ empty d = empty other
  /\ (forall a w, invoke d a w = invoke other a w)
  /\ (forall o, operator_eq (apply_mutator d o) (apply_mutator other o) = true).
Proof.
  rewrite operator_eq_true.
  destruct d as [[ctx tr]], other as [[ctx' tr']]. simpl.
  intros [-> ->]. repeat split.
  intros o. apply operator_eq_true. split; reflexivity.
Qed.

(** X4. Between delegates bound with the member form [operator==]
    identifies the target: they are equal exactly when class, member and
    instance are the same. *)
Theorem bound_delegates_equal_iff_same_target C C' m m' p q d other :
  operator_eq (connect_member C m p d) (connect_member C' m' q other) = true
  <-> C = C' /\ m = m' /\ p = q.
Proof.
  rewrite operator_eq_true, !stub_connect_member. simpl. split.
  - intros [Hctx Htr]. repeat split; congruence.
  - intros (-> & -> & ->). split; reflexivity.
Qed.

(** X6. Two empty delegates are equal exactly when their contexts are
    equal, and an empty delegate never equals a bound one. *)
Theorem empty_delegates_compare_by_context d other :
  (empty d = true -> empty other = true ->
   (operator_eq d other = true <-> (stub d).1 = (stub other).1))
  /\ (empty d = true -> empty other = false ->
      operator_eq d other = false /\ operator_eq other d = false).
Proof.
  split.
  - rewrite !empty_iff_null, operator_eq_true. intros Hd Ho.
    rewrite Hd, Ho. tauto.
  - intros Hd Ho. apply empty_iff_null in Hd.
    assert (Hne : (stub d).2 <> (stub other).2).
    { intros Heq. rewrite Hd in Heq.
      symmetry in Heq. apply empty_iff_null in Heq. congruence. }
    split; apply operator_eq_false_trampoline; congruence.
Qed.

(** ** Delegates built through the interface *)

(** X8. Both mutating calls that compile, the member form of [connect]
    and copy assignment, overwrite the whole of [stub]: the calls made
    before any one of them can be dropped from a history without changing
    the delegate it builds. *)
Theorem history_before_mutator_is_irrelevant
  (before after : list (@mutator class_id free_id member_id)) o :
  run (before ++ o :: after) = run (o :: after).
Proof.
  unfold run. rewrite fold_left_app. simpl.
  destruct o; reflexivity.
Qed.

(** X11. The member form of [connect] checks nothing about the instance:
    bound to a null pointer, or to an address where no object lives, the
    delegate reports non-empty and its invocation is undefined. *)
Theorem connect_member_does_not_validate C m d a w :
  empty (connect_member C m nullptr d) = false
  /\ invoke (connect_member C m nullptr d) a w = Undefined
  /\ (forall p,
        w !! p = None ->
        empty (connect_member C m p d) = false
        /\ invoke (connect_member C m p d) a w = Undefined).
Proof.
  split; [reflexivity|]. split; [reflexivity|].
  intros p Hdead. split; [reflexivity|].
  rewrite invoke_member. unfold member_call.
  destruct (decide (p = nullptr)); [reflexivity|].
  rewrite Hdead. reflexivity.
Qed.

(** X12. Rebinding with the member form replaces the binding: whatever
    member and instance the delegate held, after [connect<m'>(q)] on a
    valid [q] an invocation runs [m'] on [q], and nothing of the old
    binding is left in the delegate. *)
Theorem member_rebinding_dispatches_to_new_target C m p C' m' q d a w :
  valid w C' q ->
  connect_member C' m' q (connect_member C m p d) = connect_member C' m' q default
  /\ invoke (connect_member C' m' q (connect_member C m p d)) a w
     = as_Ret (member_fn m' q a w).
Proof.
  intros Hvalid. split; [reflexivity|].
  rewrite invoke_member, (arrow_star_valid _ _ _ _ _ Hvalid). reflexivity.
Qed.


End DelegateProperties.

(** ** Targets that return [Ret] itself *)
Section NoConversion.

Context {Ret Args Obj : Type}.
Context {class_id free_id member_id : Type}.
Context `{!EqDecision class_id, !EqDecision free_id, !EqDecision member_id}.

Variable is_base_of : class_id -> class_id -> bool.
Variable class_of : Obj -> class_id.
Variable free_fn : free_id -> Args -> gmap N Obj -> outcome Ret Obj.
Variable member_fn : member_id -> ptr -> Args -> gmap N Obj -> outcome Ret Obj.

Lemma return_as_Ret_same_type (o : outcome Ret Obj) :
  return_as_Ret (fun r => r) o = o.
Proof. destruct o; reflexivity. Qed.

(** X13. When the bound member returns [Ret] itself there is no
    conversion: on a valid instance the invocation is exactly the member
    call, result and memory. *)
Theorem member_call_exact_without_conversion
  (C : class_id) (m : member_id) (p : ptr)
  (d : @Delegate class_id free_id member_id) (a : Args) (w : gmap N Obj) :
  valid_instance is_base_of class_of w C p ->
  operator_call (fun r => r) is_base_of class_of free_fn member_fn
    (connect_member C m p d) a w
  = member_fn m p a w.
Proof.
  intros [Hnn (o & Hlook & Hcls)].
  unfold operator_call, proto, member_call. simpl.
  destruct (decide (p = nullptr)) as [Heq|_]; [contradiction|].
  rewrite Hlook, Hcls. apply return_as_Ret_same_type.
Qed.

End NoConversion.

(** * The properties at work on the concrete program *)

(** Rebinding from one counter to another: only the new instance moves,
    and the delegate returns the new count converted to [bool]. *)
Example ex_rebind_counter :
  Example.call
    (connect_member Example.Counter Example.Counter_bump 32
       (connect_member Example.Counter Example.Counter_bump 16 default))
    (2, 3)%Z Example.heap
  = Returned true
      (<[16 := {| Example.dyn_class := Example.Counter; Example.count := 0 |}]>
         (<[32 := {| Example.dyn_class := Example.Counter; Example.count := 105 |}]>
            (<[64 := {| Example.dyn_class := Example.StepCounter; Example.count := 7 |}]> ∅))).
Proof. vm_compute. reflexivity. Qed.

(** A member bound to an address where nothing lives. *)
Example ex_dangling_instance :
  Example.call (connect_member Example.Counter Example.Counter_bump 48 default)
    (2, 3)%Z Example.heap
  = Undefined.
Proof. reflexivity. Qed.

(** C2, the claim as stated, at [Delegate<bool(int, int)>] bound to
    [int Counter::bump(int, int) const] on the counter at address 16:
    [(obj->*m)(2, 3)] is 5, the delegate returns [true], and [true == 5]
    is false. *)
Lemma member_result_is_not_returned_unchanged :
  valid_instance Example.is_base_of Example.dyn_class Example.heap
    Example.Counter 16
  /\ exists w',
      Example.member_fn Example.Counter_bump 16 (2, 3)%Z Example.heap
      = Returned 5%Z w'
      /\ Example.call
           (connect_member Example.Counter Example.Counter_bump 16 default)
           (2, 3)%Z Example.heap
         = Returned true w'
      /\ Example.promote true <> 5%Z.
Proof.
  split.
  - split; [discriminate|]. eexists. split; reflexivity.
  - eexists. split; [reflexivity|]. split; [reflexivity|]. discriminate.
Qed.

(** A member of [Counter] run through a delegate on the [StepCounter] at
    address 64. *)
Lemma delegate_member_function_call_witness :
  valid_instance Example.is_base_of Example.dyn_class Example.heap
    Example.Counter 64
  /\ Example.call
       (connect_member Example.Counter Example.Counter_bump 64 default)
       (2, 3)%Z Example.heap
     = return_as_Ret Example.int_to_bool
         (Example.member_fn Example.Counter_bump 64 (2, 3)%Z Example.heap).
Proof.
  assert (Hvalid : valid_instance Example.is_base_of Example.dyn_class
                     Example.heap Example.Counter 64).
  { split; [discriminate|]. eexists. split; reflexivity. }
  split; [exact Hvalid|].
  apply (delegate_member_function_call Example.int_to_bool Example.is_base_of
           Example.dyn_class Example.free_fn Example.member_fn
           Example.Counter Example.Counter_bump 64 default
           (2, 3)%Z Example.heap Hvalid).
Defined.

Lemma operator_eq_is_binding_identity_witness :
  Example.Counter_bump <> Example.Counter_add
  /\ (forall this a w,
        Example.member_fn Example.Counter_bump this a w
        = Example.member_fn Example.Counter_add this a w)
  /\ operator_eq
       (connect_member Example.Counter Example.Counter_bump 16 (default : Example.D))
       (connect_member Example.Counter Example.Counter_add 16 default) = false.
Proof.
  assert (Hne : Example.Counter_bump <> Example.Counter_add) by discriminate.
  assert (Hsame : forall this a w,
             Example.member_fn Example.Counter_bump this a w
             = Example.member_fn Example.Counter_add this a w)
    by (intros this a w; reflexivity).
  split; [exact Hne|]. split; [exact Hsame|].
  exact (proj2 (operator_eq_is_binding_identity Example.member_fn
                  (default : Example.D) default)
           Example.Counter Example.Counter_bump Example.Counter_add 16
           Hne Hsame).
Defined.

Lemma same_member_distinct_instances_unequal_witness :
  (16 : ptr) <> 32
  /\ operator_eq
       (connect_member Example.Counter Example.Counter_bump 16 (default : Example.D))
       (connect_member Example.Counter Example.Counter_bump 32 default) = false.
Proof.
  assert (Hpq : (16 : ptr) <> 32) by discriminate.
  split; [exact Hpq|].
  exact (same_member_distinct_instances_unequal
           Example.Counter Example.Counter_bump 16 32 default default Hpq).
Defined.

(** * Witnesses for the further properties *)

Lemma operator_eq_equivalence_witness :
  operator_eq
    (connect_member Example.Counter Example.Counter_bump 16 (default : Example.D))
    (connect_member Example.Counter Example.Counter_bump 16
       (connect_member Example.Counter Example.Counter_add 32 default)) = true
  /\ operator_eq
       (connect_member Example.Counter Example.Counter_bump 16
          (connect_member Example.Counter Example.Counter_add 32 (default : Example.D)))
       (operator_assign
          (connect_member Example.Counter Example.Counter_bump 16 default)
          default) = true
  /\ operator_eq
       (connect_member Example.Counter Example.Counter_bump 16 (default : Example.D))
       (operator_assign
          (connect_member Example.Counter Example.Counter_bump 16 default)
          default) = true.
Proof.
  assert (H1 : operator_eq
                 (connect_member Example.Counter Example.Counter_bump 16
                    (default : Example.D))
                 (connect_member Example.Counter Example.Counter_bump 16
                    (connect_member Example.Counter Example.Counter_add 32 default))
               = true)
    by reflexivity.
  assert (H2 : operator_eq
                 (connect_member Example.Counter Example.Counter_bump 16
                    (connect_member Example.Counter Example.Counter_add 32
                       (default : Example.D)))
                 (operator_assign
                    (connect_member Example.Counter Example.Counter_bump 16 default)
                    default)
               = true)
    by reflexivity.
  split; [exact H1|]. split; [exact H2|].
  exact (proj1 (proj2 (proj2 (operator_eq_equivalence _ _ _))) H1 H2).
Defined.

Lemma equal_delegates_indistinguishable_witness :
  operator_eq
    (connect_member Example.Counter Example.Counter_bump 16 (default : Example.D))
    (connect_member Example.Counter Example.Counter_bump 16
       (connect_member Example.Counter Example.Counter_add 32 default)) = true
  /\ forall a w,
      Example.call
        (connect_member Example.Counter Example.Counter_bump 16 default) a w
      = Example.call
          (connect_member Example.Counter Example.Counter_bump 16
             (connect_member Example.Counter Example.Counter_add 32 default)) a w.
Proof.
  assert (Heq : operator_eq
                  (connect_member Example.Counter Example.Counter_bump 16
                     (default : Example.D))
                  (connect_member Example.Counter Example.Counter_bump 16
                     (connect_member Example.Counter Example.Counter_add 32 default))
                = true)
    by reflexivity.
  split; [exact Heq|].
  exact (proj1 (proj2 (proj2
           (equal_delegates_indistinguishable Example.int_to_bool
              Example.is_base_of Example.dyn_class Example.free_fn
              Example.member_fn _ _ Heq)))).
Defined.

Lemma empty_delegates_compare_by_context_witness :
  empty (default : Example.D) = true
  /\ empty (connect_member Example.Counter Example.Counter_bump 16
              (default : Example.D)) = false
  /\ operator_eq (default : Example.D)
       (connect_member Example.Counter Example.Counter_bump 16 default) = false.
Proof.
  assert (Hd : empty (default : Example.D) = true) by reflexivity.
  assert (Ho : empty (connect_member Example.Counter Example.Counter_bump 16
                        (default : Example.D)) = false)
    by reflexivity.
  split; [exact Hd|]. split; [exact Ho|].
  exact (proj1 (proj2 (empty_delegates_compare_by_context _ _) Hd Ho)).
Defined.

Lemma connect_member_does_not_validate_witness :
  Example.heap !! (48 : N) = None
  /\ Example.call
       (connect_member Example.Counter Example.Counter_bump 48 default)
       (2, 3)%Z Example.heap
     = Undefined.
Proof.
  assert (Hdead : Example.heap !! (48 : N) = None) by reflexivity.
  split; [exact Hdead|].
  exact (proj2 (proj2 (proj2
           (connect_member_does_not_validate Example.int_to_bool
              Example.is_base_of Example.dyn_class Example.free_fn
              Example.member_fn Example.Counter Example.Counter_bump default
              (2, 3)%Z Example.heap)) 48 Hdead)).
Defined.

Lemma member_rebinding_dispatches_to_new_target_witness :
  valid_instance Example.is_base_of Example.dyn_class Example.heap
    Example.Counter 32
  /\ Example.call
       (connect_member Example.Counter Example.Counter_add 32
          (connect_member Example.Counter Example.Counter_bump 16 default))
       (2, 3)%Z Example.heap
     = return_as_Ret Example.int_to_bool
         (Example.member_fn Example.Counter_add 32 (2, 3)%Z Example.heap).
Proof.
  assert (Hvalid : valid_instance Example.is_base_of Example.dyn_class
                     Example.heap Example.Counter 32).
  { split; [discriminate|]. eexists. split; reflexivity. }
  split; [exact Hvalid|].
  exact (proj2 (member_rebinding_dispatches_to_new_target Example.int_to_bool
                  Example.is_base_of Example.dyn_class Example.free_fn
                  Example.member_fn Example.Counter Example.Counter_bump 16
                  Example.Counter Example.Counter_add 32 default
                  (2, 3)%Z Example.heap Hvalid)).
Defined.

Lemma member_call_exact_without_conversion_witness :
  valid_instance Example.is_base_of Example.dyn_class Example.heap
    Example.Counter 16
  /\ Example.call_int
       (connect_member Example.Counter Example.Counter_bump 16 default)
       (2, 3)%Z Example.heap
     = Example.member_fn Example.Counter_bump 16 (2, 3)%Z Example.heap.
Proof.
  assert (Hvalid : valid_instance Example.is_base_of Example.dyn_class
                     Example.heap Example.Counter 16).
  { split; [discriminate|]. eexists. split; reflexivity. }
  split; [exact Hvalid|].
  exact (member_call_exact_without_conversion Example.is_base_of
           Example.dyn_class Example.free_fn Example.member_fn
           Example.Counter Example.Counter_bump 16 default
           (2, 3)%Z Example.heap Hvalid).
Defined.

